(** * Legolas backend: the [GET /config] route of [backend/main.py]

    The program is one FastAPI route whose handler reads four environment
    variables with [os.getenv(name, "NOT_SET")] and returns them in a dict
    display.  The development embeds

    - Python [str] values as sequences of code points,
    - [os.environ] as a finite map inside an explicit process state,
    - the handler as a computation in a small state-and-exception monad,
    - the route's default response path ([JSONResponse]: [json.dumps] with
      compact separators, then [.encode("utf-8")]),

    and states the properties of the route over these definitions. *)

From Stdlib Require Import String Ascii NArith Lia List.
From stdpp Require Import base option list gmap.

Local Open Scope N_scope.

(** ** Python values *)

Module Py.

(** A [str] is a sequence of Unicode code points.  Values that
    [os.environ] decodes with the [surrogateescape] handler can hold lone
    surrogates U+DC80..U+DCFF, so a [str] is not always encodable. *)
Definition str : Type := list N.

(** A [str] literal of the source, all of them ASCII. *)
Definition lit (s : string) : str :=
  map N_of_ascii (list_ascii_of_string s).

Definition bytes : Type := list N.

Inductive exn : Type :=
| KeyError (key : str)
| UnicodeEncodeError (codec : str) (code_point : N).

(** Insertion-ordered [dict] with [str] keys and values. *)
Definition dict : Type := list (str * str).

Fixpoint dict_setitem (d : dict) (k v : str) : dict :=
  match d with
  | [] => [(k, v)]
  | (k', v') :: d' =>
      if decide (k' = k) then (k', v) :: d'
      else (k', v') :: dict_setitem d' k v
  end.

Fixpoint dict_get (d : dict) (k : str) : option str :=
  match d with
  | [] => None
  | (k', v') :: d' => if decide (k' = k) then Some v' else dict_get d' k
  end.

Definition dict_keys (d : dict) : list str := map fst d.

(** A dict display [{k1: v1, ..., kn: vn}]: the items are stored left to
    right, a repeated key keeps its first position and its last value. *)
Definition dict_display (items : list (str * str)) : dict :=
  fold_left (fun d kv => dict_setitem d (fst kv) (snd kv)) items [].

End Py.

Import Py.

(** ** Process state and the monad of handler code *)

(** What the handler can observe or change of the running process: the
    mapping behind [os.environ]. *)
Record process : Type := Process { environ : gmap str str }.

Inductive outcome (A : Type) : Type :=
| Return (a : A)
| Raise (e : exn).
Arguments Return {A} a.
Arguments Raise {A} e.

Definition py (A : Type) : Type := process -> outcome A * process.

Definition ret {A} (a : A) : py A := fun p => (Return a, p).

Definition raise {A} (e : exn) : py A := fun p => (Raise e, p).

Definition bind {A B} (m : py A) (f : A -> py B) : py B :=
  fun p =>
    match m p with
    | (Return a, p') => f a p'
    | (Raise e, p') => (Raise e, p')
    end.

(** [try: m except KeyError: h] *)
Definition try_except_KeyError {A} (m : py A) (h : py A) : py A :=
  fun p =>
    match m p with
    | (Raise (KeyError _), p') => h p'
    | r => r
    end.

#[export] Instance py_ret : MRet py := @ret.
#[export] Instance py_bind : MBind py := fun A B f m => bind m f.

Definition result {A} (m : py A) (p : process) : outcome A := fst (m p).
Definition final {A} (m : py A) (p : process) : process := snd (m p).

(** ** The [os] module, as far as the handler uses it *)

Module os.

(** [os.environ[key]] *)
Definition environ_getitem (key : str) : py str :=
  fun p =>
    match environ p !! key with
    | Some value => ret value p
    | None => raise (KeyError key) p
    end.

(** [os.environ.get(key, default)], the [Mapping.get] mixin. *)
Definition environ_get (key default : str) : py str :=
  try_except_KeyError (environ_getitem key) (ret default).

(** [os.getenv(key, default)] *)
Definition getenv (key default : str) : py str :=
  environ_get key default.

End os.

(** ** [backend/main.py] *)

Definition COSMOS_DB_ENDPOINT : str := lit "COSMOS_DB_ENDPOINT".
Definition AIDIAGEXPERT_ENDPOINT : str := lit "AIDIAGEXPERT_ENDPOINT".
Definition AIDIAGEXPERT_KEY : str := lit "AIDIAGEXPERT_KEY".
Definition AZURE_STORAGE_CONNECTION_STRING_1 : str :=
  lit "AZURE_STORAGE_CONNECTION_STRING_1".
Definition NOT_SET : str := lit "NOT_SET".

(** [def get_config()]: the dict display evaluates each key and value from
    left to right, so the four lookups run in source order. *)
Definition get_config : py dict :=
  v1 ← os.getenv COSMOS_DB_ENDPOINT NOT_SET;
  v2 ← os.getenv AIDIAGEXPERT_ENDPOINT NOT_SET;
  v3 ← os.getenv AIDIAGEXPERT_KEY NOT_SET;
  v4 ← os.getenv AZURE_STORAGE_CONNECTION_STRING_1 NOT_SET;
  mret (dict_display
         [ (COSMOS_DB_ENDPOINT, v1);
           (AIDIAGEXPERT_ENDPOINT, v2);
           (AIDIAGEXPERT_KEY, v3);
           (AZURE_STORAGE_CONNECTION_STRING_1, v4) ]).

(** The four names the handler looks up, in source order. *)
Definition config_keys : list str :=
  [ COSMOS_DB_ENDPOINT; AIDIAGEXPERT_ENDPOINT; AIDIAGEXPERT_KEY;
    AZURE_STORAGE_CONNECTION_STRING_1 ].

(** What [os.getenv(key, "NOT_SET")] yields in an environment. *)
Definition lookup_or_sentinel (env : gmap str str) (key : str) : str :=
  default NOT_SET (env !! key).

(** ** [json.dumps], as [JSONResponse.render] calls it

    [json.dumps(content, ensure_ascii=False, allow_nan=False, indent=None,
    separators=(",", ":"))] on a dict of [str] to [str]. *)

Module json.

(** Lower-case hexadecimal digit, as the format [{0:04x}] prints it. *)
Definition hex_digit (n : N) : N :=
  if n <? 10 then 48 + n else 87 + n.

(** [ESCAPE_DCT]: the replacement of one character that [ESCAPE]
    matches (the quotation mark, the backslash and the control characters
    below U+0020); every other character is kept, since [ensure_ascii]
    is off. *)
Definition escape_char (c : N) : str :=
  if c =? 34 then [92; 34]
  else if c =? 92 then [92; 92]
  else if c =? 8 then [92; 98]
  else if c =? 12 then [92; 102]
  else if c =? 10 then [92; 110]
  else if c =? 13 then [92; 114]
  else if c =? 9 then [92; 116]
  else if c <? 32 then
    [92; 117; 48; 48; hex_digit (c / 16); hex_digit (c mod 16)]
  else [c].

(** [py_encode_basestring] *)
Definition encode_basestring (s : str) : str :=
  [34] ++ flat_map escape_char s ++ [34].

(** [separator.join(parts)] *)
Fixpoint join (separator : str) (parts : list str) : str :=
  match parts with
  | [] => []
  | [part] => part
  | part :: parts' => part ++ separator ++ join separator parts'
  end.

Definition item_separator : str := [44].
Definition key_separator : str := [58].

Definition encode_item (kv : str * str) : str :=
  encode_basestring (fst kv) ++ key_separator ++ encode_basestring (snd kv).

(** The encoder's dict case: items in the dict's own order. *)
Definition dumps (content : dict) : str :=
  [123] ++ join item_separator (map encode_item content) ++ [125].

End json.

(** ** [str.encode("utf-8")] *)

Module utf8.

Definition is_surrogate (c : N) : bool := (0xD800 <=? c) && (c <=? 0xDFFF).

(** The code points the strict UTF-8 codec accepts.  A [str] holds no
    value above U+10FFFF; the bound is checked all the same, so that
    whatever [encode] returns is well-formed UTF-8. *)
Definition encodable (c : N) : bool :=
  negb (is_surrogate c) && (c <=? 0x10FFFF).

Definition continuation (c : N) (shift : N) : N :=
  N.lor 0x80 (N.land (N.shiftr c shift) 0x3F).

Definition encode_char (c : N) : bytes :=
  if c <? 0x80 then [c]
  else if c <? 0x800 then
    [N.lor 0xC0 (N.shiftr c 6); continuation c 0]
  else if c <? 0x10000 then
    [N.lor 0xE0 (N.shiftr c 12); continuation c 6; continuation c 0]
  else
    [N.lor 0xF0 (N.shiftr c 18); continuation c 12; continuation c 6;
     continuation c 0].

(** [s.encode("utf-8")] with the default [errors="strict"]: the first
    surrogate raises [UnicodeEncodeError]. *)
Fixpoint encode (s : str) : outcome bytes :=
  match s with
  | [] => Return []
  | c :: s' =>
      if encodable c then
        match encode s' with
        | Return b => Return (encode_char c ++ b)
        | Raise e => Raise e
        end
      else Raise (UnicodeEncodeError (lit "utf-8") c)
  end.

End utf8.

(** ** JSON texts (RFC 8259)

    A reference reader for the JSON grammar, used to say what a valid JSON
    body is.  It reads a text of code points and returns its syntax tree;
    an escape [\uXXXX] is read as the one code unit it names. *)

Module RFC8259.

#[warnings="-register-all"] Inductive value : Type :=
| Null
| Bool (b : bool)
| Number (lexeme : str)
| String (s : str)
| Array (elements : list value)
| Object (members : list (str * value)).

Definition is_ws (c : N) : bool :=
  (c =? 32) || (c =? 9) || (c =? 10) || (c =? 13).

Fixpoint skip_ws (s : str) : str :=
  match s with
  | c :: s' => if is_ws c then skip_ws s' else s
  | [] => []
  end.

Definition is_digit (c : N) : bool := (48 <=? c) && (c <=? 57).

Definition hex_value (c : N) : option N :=
  if is_digit c then Some (c - 48)
  else if (97 <=? c) && (c <=? 102) then Some (c - 87)
  else if (65 <=? c) && (c <=? 70) then Some (c - 55)
  else None.

Definition hex4 (a b c d : N) : option N :=
  a' ← hex_value a; b' ← hex_value b;
  c' ← hex_value c; d' ← hex_value d;
  Some (((a' * 16 + b') * 16 + c') * 16 + d').

(** The character after a backslash, other than [u]. *)
Definition unescape (c : N) : option N :=
  if c =? 34 then Some 34
  else if c =? 92 then Some 92
  else if c =? 47 then Some 47
  else if c =? 98 then Some 8
  else if c =? 102 then Some 12
  else if c =? 110 then Some 10
  else if c =? 114 then Some 13
  else if c =? 116 then Some 9
  else None.

(** The characters of a string up to its closing quotation mark. *)
Fixpoint read_chars (s : str) : option (str * str) :=
  match s with
  | [] => None
  | c :: s1 =>
      if c =? 34 then Some ([], s1)
      else if c =? 92 then
        match s1 with
        | [] => None
        | e :: s2 =>
            if e =? 117 then
              match s2 with
              | h1 :: h2 :: h3 :: h4 :: s3 =>
                  u ← hex4 h1 h2 h3 h4;
                  '(cs, rest) ← read_chars s3;
                  Some (u :: cs, rest)
              | _ => None
              end
            else
              u ← unescape e;
              '(cs, rest) ← read_chars s2;
              Some (u :: cs, rest)
        end
      else if c <? 32 then None
      else
        '(cs, rest) ← read_chars s1;
        Some (c :: cs, rest)
  end.

Definition read_string (s : str) : option (str * str) :=
  match s with
  | c :: s' => if c =? 34 then read_chars s' else None
  | [] => None
  end.

Fixpoint span_digits (s : str) : str * str :=
  match s with
  | c :: s' =>
      if is_digit c then
        let '(ds, rest) := span_digits s' in (c :: ds, rest)
      else ([], s)
  | [] => ([], [])
  end.

(** [int = zero / (digit1-9 *DIGIT)] *)
Definition read_int (s : str) : option (str * str) :=
  match s with
  | c :: s' =>
      if c =? 48 then Some ([c], s')
      else if is_digit c then
        let '(ds, rest) := span_digits s' in Some (c :: ds, rest)
      else None
  | [] => None
  end.

(** [frac = decimal-point 1*DIGIT], optional. *)
Definition read_frac (s : str) : option (str * str) :=
  match s with
  | c :: s' =>
      if c =? 46 then
        match span_digits s' with
        | ([], _) => None
        | (ds, rest) => Some (c :: ds, rest)
        end
      else Some ([], s)
  | [] => Some ([], [])
  end.

(** [exp = e [minus / plus] 1*DIGIT], optional. *)
Definition read_exp (s : str) : option (str * str) :=
  match s with
  | c :: s' =>
      if (c =? 101) || (c =? 69) then
        let '(sign, s'') :=
          match s' with
          | g :: t => if (g =? 43) || (g =? 45) then ([g], t) else ([], s')
          | [] => ([], s')
          end in
        match span_digits s'' with
        | ([], _) => None
        | (ds, rest) => Some (c :: sign ++ ds, rest)
        end
      else Some ([], s)
  | [] => Some ([], [])
  end.

(** [number = [minus] int [frac] [exp]] *)
Definition read_number (s : str) : option (str * str) :=
  let '(minus, s0) :=
    match s with
    | c :: s' => if c =? 45 then ([c], s') else ([], s)
    | [] => ([], s)
    end in
  '(i, s1) ← read_int s0;
  '(f, s2) ← read_frac s1;
  '(e, s3) ← read_exp s2;
  Some (minus ++ i ++ f ++ e, s3).

(** [s] starts with the literal [word]. *)
Fixpoint read_literal (word s : str) : option str :=
  match word, s with
  | [], _ => Some s
  | _ :: _, [] => None
  | w :: word', c :: s' => if c =? w then read_literal word' s' else None
  end.

(** [read_value] reads one value; [read_members] and [read_elements] read
    what follows the opening bracket of a non-empty object or array.  The
    fuel bounds the number of nested and successive calls; every call
    consumes a character, so the length of the text is enough. *)
Fixpoint read_value (fuel : nat) (s : str) : option (value * str) :=
  match fuel with
  | O => None
  | S fuel' =>
      match s with
      | [] => None
      | c :: s' =>
          if c =? 34 then
            '(cs, rest) ← read_chars s'; Some (String cs, rest)
          else if c =? 123 then
            match skip_ws s' with
            | c' :: s'' =>
                if c' =? 125 then Some (Object [], s'')
                else
                  '(ms, rest) ← read_members fuel' (c' :: s'');
                  Some (Object ms, rest)
            | [] => None
            end
          else if c =? 91 then
            match skip_ws s' with
            | c' :: s'' =>
                if c' =? 93 then Some (Array [], s'')
                else
                  '(vs, rest) ← read_elements fuel' (c' :: s'');
                  Some (Array vs, rest)
            | [] => None
            end
          else if c =? 116 then
            rest ← read_literal (lit "true") s; Some (Bool true, rest)
          else if c =? 102 then
            rest ← read_literal (lit "false") s; Some (Bool false, rest)
          else if c =? 110 then
            rest ← read_literal (lit "null") s; Some (Null, rest)
          else
            '(lexeme, rest) ← read_number s; Some (Number lexeme, rest)
      end
  end
with read_members (fuel : nat) (s : str) : option (list (str * value) * str) :=
  match fuel with
  | O => None
  | S fuel' =>
      '(k, s1) ← read_string s;
      match skip_ws s1 with
      | c :: s2 =>
          if c =? 58 then
            '(v, s3) ← read_value fuel' (skip_ws s2);
            match skip_ws s3 with
            | c' :: s4 =>
                if c' =? 125 then Some ([(k, v)], s4)
                else if c' =? 44 then
                  '(ms, rest) ← read_members fuel' (skip_ws s4);
                  Some ((k, v) :: ms, rest)
                else None
            | [] => None
            end
          else None
      | [] => None
      end
  end
with read_elements (fuel : nat) (s : str) : option (list value * str) :=
  match fuel with
  | O => None
  | S fuel' =>
      '(v, s1) ← read_value fuel' s;
      match skip_ws s1 with
      | c :: s2 =>
          if c =? 93 then Some ([v], s2)
          else if c =? 44 then
            '(vs, rest) ← read_elements fuel' (skip_ws s2);
            Some (v :: vs, rest)
          else None
      | [] => None
      end
  end.

(** [JSON-text = ws value ws] *)
Definition read_text (s : str) : option value :=
  '(v, rest) ← read_value (S (length s)) (skip_ws s);
  match skip_ws rest with
  | [] => Some v
  | _ :: _ => None
  end.

(** A body is valid JSON when it is the UTF-8 encoding of a JSON text. *)
Definition valid_body (b : bytes) : Prop :=
  exists text : str,
    utf8.encode text = Return b /\ is_Some (read_text text).

End RFC8259.

(** ** The route: [@app.get("/config")] *)

Record response : Type := Response {
  status_code : N;
  content_type : str;
  body : bytes
}.

(** What a client sends with a request to the route. *)
Record request : Type := Request {
  query_string : bytes;
  headers : list (bytes * bytes);
  request_body : bytes
}.

(** The arguments that [app.get] records for a path operation. *)
Record APIRoute : Type := {
  path : str;
  methods : list str;
  route_status_code : option N;
  endpoint : py dict
}.

Module fastapi.

(** [app.get(path)(endpoint)]: no [status_code] and no [response_class]
    are given, so the route answers through the defaults. *)
Definition app_get (path : str) (endpoint : py dict) : APIRoute :=
  {| path := path; methods := [lit "GET"]; route_status_code := None;
     endpoint := endpoint |}.

(** [JSONResponse.render(content)] *)
Definition render (content : dict) : outcome bytes :=
  utf8.encode (json.dumps content).

(** [JSONResponse(content, status_code)], whose [media_type] is
    [application/json]. *)
Definition JSONResponse (content : dict) (status : N) : py response :=
  fun p =>
    match render content with
    | Return b => (Return (Response status (lit "application/json") b), p)
    | Raise e => (Raise e, p)
    end.

(** [key.startswith(prefix)] *)
Fixpoint startswith (key prefix : str) : bool :=
  match prefix, key with
  | [], _ => true
  | _ :: _, [] => false
  | c :: prefix', c' :: key' => (c' =? c) && startswith key' prefix'
  end.

(** [jsonable_encoder] on a dict of [str] to [str] rebuilds the dict
    item by item; with the default [sqlalchemy_safe=True] it leaves out
    the keys that start with [_sa]. *)
Definition jsonable_encoder (content : dict) : dict :=
  fold_left
    (fun d kv =>
       if startswith (fst kv) (lit "_sa") then d
       else dict_setitem d (fst kv) (snd kv))
    content [].

(** The request handler of a route.  The endpoint declares no parameter,
    so nothing of the request reaches it. *)
Definition request_handler (route : APIRoute) (_ : request) : py response :=
  raw_response ← endpoint route;
  JSONResponse (jsonable_encoder raw_response)
               (default 200 (route_status_code route)).

(** The answer of [ServerErrorMiddleware] to an unhandled exception. *)
Definition internal_server_error : response :=
  Response 500 (lit "text/plain; charset=utf-8")
           (lit "Internal Server Error").

Definition ServerErrorMiddleware (app : py response) : py response :=
  fun p =>
    match app p with
    | (Return r, p') => (Return r, p')
    | (Raise _, p') => (Return internal_server_error, p')
    end.

End fastapi.

(** [@app.get("/config")] above [def get_config()], on [app = FastAPI()]. *)
Definition config_route : APIRoute :=
  fastapi.app_get (lit "/config") get_config.

(** One [GET /config] exchange. *)
Definition GET_config (req : request) : py response :=
  fastapi.ServerErrorMiddleware (fastapi.request_handler config_route req).

(** ** Vocabulary of the statements *)

(** The dict that the handler builds in environment [env]. *)
Definition config_snapshot (env : gmap str str) : dict :=
  map (fun key => (key, lookup_or_sentinel env key)) config_keys.

(** A [str] that the strict UTF-8 codec encodes. *)
Definition encodable_str (s : str) : bool := forallb utf8.encodable s.

(** Every value that the handler would read from [env] is encodable. *)
Definition encodable_config (env : gmap str str) : Prop :=
  forall key, key ∈ config_keys ->
    encodable_str (lookup_or_sentinel env key) = true.

(** The JSON object that holds the items of a dict. *)
Definition json_of_dict (d : dict) : RFC8259.value :=
  RFC8259.Object (map (fun kv => (fst kv, RFC8259.String (snd kv))) d).

(** The body of [r] is the UTF-8 encoding of a JSON text that reads as [v]. *)
Definition body_reads_as (r : response) (v : RFC8259.value) : Prop :=
  exists text : str,
    utf8.encode text = Return (body r) /\ RFC8259.read_text text = Some v.

(** An environment given by its items. *)
Definition process_of (items : list (str * str)) : process :=
  Process (list_to_map items).

(** The answer of the route in environment [env]. *)
Definition config_response (env : gmap str str) : response :=
  match fastapi.render (config_snapshot env) with
  | Return b => Response 200 (lit "application/json") b
  | Raise _ => fastapi.internal_server_error
  end.

(** The member [key] of a JSON object. *)
Definition object_get (v : RFC8259.value) (key : str)
  : option RFC8259.value :=
  match v with
  | RFC8259.Object members =>
      snd <$> find (fun m => bool_decide (fst m = key)) members
  | _ => None
  end.

(** The names of the members of a JSON object, in the order of the text. *)
Definition object_keys (v : RFC8259.value) : list str :=
  match v with
  | RFC8259.Object members => map fst members
  | _ => []
  end.

(** Two calls of the handler with the statement [between] run in between. *)
Definition two_calls (between : py unit) : py (dict * dict) :=
  d1 ← get_config;
  _ ← between;
  d2 ← get_config;
  mret (d1, d2).


(** Environments and a request used as concrete instances. *)
Definition empty_environment : process := process_of [].

Definition environment_with_empty_key : process :=
  process_of [(AIDIAGEXPERT_KEY, []); (lit "PATH", lit "/usr/bin")].

Definition environment_fully_set : process :=
  process_of
    [ (lit "HOME", lit "/root");
      (AZURE_STORAGE_CONNECTION_STRING_1, lit "UseDevelopmentStorage=true");
      (AIDIAGEXPERT_KEY, lit "k3y");
      (AIDIAGEXPERT_ENDPOINT, lit "https://diag.example");
      (COSMOS_DB_ENDPOINT, lit "https://example.cosmos.azure.com") ].

(** [COSMOS_DB_ENDPOINT] holds the one byte 0xFF, which [os.environ]
    decodes to the lone surrogate U+DCFF. *)
Definition environment_with_undecodable_byte : process :=
  process_of [(COSMOS_DB_ENDPOINT, [0xDCFF])].

Definition plain_request : request := Request [] [] [].

Definition request_with_data : request :=
  Request (lit "COSMOS_DB_ENDPOINT=x")
          [(lit "accept", lit "text/html")]
          (lit "AIDIAGEXPERT_KEY=y").

(** The bytes of an ASCII text in which the apostrophe stands for the
    quotation mark. *)
Definition quoted (s : string) : bytes :=
  map (fun c => if c =? 39 then 34 else c) (lit s).

(** Scenario 1 of the specification: one variable set, the others unset. *)
Definition environment_scenario_1 : process :=
  process_of [(COSMOS_DB_ENDPOINT, lit "https://example.cosmos.azure.com")].

(** The exchanges for a list of requests, served one after the other. *)
Fixpoint serve_all (reqs : list request) : py (list response) :=
  match reqs with
  | [] => mret []
  | req :: reqs' =>
      r ← GET_config req;
      rs ← serve_all reqs';
      mret (r :: rs)
  end.

(** Two exchanges with the statement [between] run in between. *)
Definition two_exchanges (req1 req2 : request) (between : py unit)
  : py (response * response) :=
  r1 ← GET_config req1;
  _ ← between;
  r2 ← GET_config req2;
  mret (r1, r2).

(** [AIDIAGEXPERT_KEY] holds the one byte 0xFF; the other three variables
    are absent. *)
Definition environment_with_undecodable_key : process :=
  process_of [(AIDIAGEXPERT_KEY, [0xDCFF])].

(** All four variables are set, [AIDIAGEXPERT_ENDPOINT] to the one byte
    0xFF. *)
Definition environment_fully_set_undecodable : process :=
  process_of
    [ (AZURE_STORAGE_CONNECTION_STRING_1, lit "UseDevelopmentStorage=true");
      (AIDIAGEXPERT_KEY, lit "k3y");
      (AIDIAGEXPERT_ENDPOINT, [0xDCFF]);
      (COSMOS_DB_ENDPOINT, lit "https://example.cosmos.azure.com") ].

(** * Properties *)

(** ** The handler *)

Lemma getenv_spec key dflt p :
  os.getenv key dflt p = (Return (default dflt (environ p !! key)), p).
Proof.
  unfold os.getenv, os.environ_get, try_except_KeyError, os.environ_getitem.
  destruct (environ p !! key); reflexivity.
Qed.

Lemma get_config_spec p :
  get_config p =
  (Return (config_snapshot (environ p)), p).
Proof.
  unfold get_config, mbind, py_bind, bind. rewrite !getenv_spec. reflexivity.
Qed.


Lemma elem_of_config_keys (key : str) :
  key ∈ config_keys <->
  key = COSMOS_DB_ENDPOINT \/ key = AIDIAGEXPERT_ENDPOINT \/
  key = AIDIAGEXPERT_KEY \/ key = AZURE_STORAGE_CONNECTION_STRING_1.
Proof.
  unfold config_keys. rewrite !elem_of_cons, elem_of_nil. tauto.
Qed.

(** A proof for each of the four keys in turn. *)
Ltac each_config_key H :=
  apply elem_of_config_keys in H;
  destruct H as [-> | [-> | [-> | ->]]].

Lemma dict_get_config_snapshot env key :
  key ∈ config_keys ->
  dict_get (config_snapshot env) key = Some (lookup_or_sentinel env key).
Proof. intros H. each_config_key H; reflexivity. Qed.

Lemma dict_keys_config_snapshot env :
  dict_keys (config_snapshot env) = config_keys.
Proof. reflexivity. Qed.


(** ** Encoding to UTF-8 *)

(** Boolean comparisons on [N] as arithmetic facts. *)
Ltac nbool :=
  repeat match goal with
    | H : _ && _ = true |- _ => apply andb_true_iff in H; destruct H
    | H : _ || _ = false |- _ => apply orb_false_iff in H; destruct H
    | H : negb _ = true |- _ => apply negb_true_iff in H
    | H : (_ <=? _) = true |- _ => apply N.leb_le in H
    | H : (_ <=? _) = false |- _ => apply N.leb_gt in H
    | H : (_ <? _) = true |- _ => apply N.ltb_lt in H
    | H : (_ <? _) = false |- _ => apply N.ltb_ge in H
    | H : (_ =? _) = true |- _ => apply N.eqb_eq in H
    | H : (_ =? _) = false |- _ => apply N.eqb_neq in H
    end.

Lemma encodable_below_surrogates c : c < 0xD800 -> utf8.encodable c = true.
Proof.
  intros H. unfold utf8.encodable, utf8.is_surrogate.
  apply andb_true_iff. split.
  - apply negb_true_iff, andb_false_iff. left. apply N.leb_gt. lia.
  - apply N.leb_le. lia.
Qed.

Lemma encodable_str_app s t :
  encodable_str (s ++ t) = encodable_str s && encodable_str t.
Proof. apply forallb_app. Qed.

Lemma encode_is_Return s :
  encodable_str s = true -> exists b, utf8.encode s = Return b.
Proof.
  induction s as [|c s IH]; simpl; intros H.
  - now exists [].
  - apply andb_true_iff in H. destruct H as [Hc Hs].
    destruct (IH Hs) as [b Hb]. rewrite Hc, Hb. eauto.
Qed.

Lemma encode_Return_encodable s b :
  utf8.encode s = Return b -> encodable_str s = true.
Proof.
  revert b. induction s as [|c s IH]; simpl; intros b H; [reflexivity|].
  destruct (utf8.encodable c); [|discriminate].
  destruct (utf8.encode s) as [b'|]; [|discriminate].
  simpl. eauto.
Qed.

Lemma hex_digit_ascii n : n < 16 -> json.hex_digit n < 128.
Proof.
  intros H. unfold json.hex_digit. destruct (n <? 10); lia.
Qed.

Lemma encodable_escape_char c :
  utf8.encodable c = true -> encodable_str (json.escape_char c) = true.
Proof.
  intros Hc. unfold json.escape_char.
  repeat match goal with
    | |- context [if ?b then _ else _] => destruct b eqn:?; [reflexivity|]
    end.
  destruct (c <? 32) eqn:Hlt.
  - nbool. simpl. rewrite !andb_true_iff. repeat split.
    + apply encodable_below_surrogates.
      assert (json.hex_digit (c / 16) < 128); [|lia].
      apply hex_digit_ascii, N.Div0.div_lt_upper_bound. lia.
    + apply encodable_below_surrogates.
      assert (json.hex_digit (c mod 16) < 128); [|lia].
      apply hex_digit_ascii, N.mod_lt. lia.
  - simpl. now rewrite Hc.
Qed.

Lemma encodable_escape s :
  encodable_str s = true ->
  encodable_str (flat_map json.escape_char s) = true.
Proof.
  induction s as [|c s IH]; simpl; intros H; [reflexivity|].
  apply andb_true_iff in H. destruct H as [Hc Hs].
  rewrite encodable_str_app, (encodable_escape_char _ Hc). simpl. auto.
Qed.

Lemma encodable_basestring s :
  encodable_str s = true ->
  encodable_str (json.encode_basestring s) = true.
Proof.
  intros H. unfold json.encode_basestring.
  simpl. rewrite encodable_str_app, (encodable_escape _ H). reflexivity.
Qed.

Lemma encodable_item kv :
  encodable_str (fst kv) = true -> encodable_str (snd kv) = true ->
  encodable_str (json.encode_item kv) = true.
Proof.
  intros Hk Hv. unfold json.encode_item, json.key_separator.
  rewrite !encodable_str_app, (encodable_basestring _ Hk),
    (encodable_basestring _ Hv). reflexivity.
Qed.

Lemma encodable_join sep parts :
  encodable_str sep = true ->
  Forall (fun part => encodable_str part = true) parts ->
  encodable_str (json.join sep parts) = true.
Proof.
  intros Hsep. induction 1 as [|part parts Hp Hps IH]; [reflexivity|].
  simpl. destruct parts as [|part' parts']; [assumption|].
  rewrite !encodable_str_app, Hp, Hsep. simpl. exact IH.
Qed.

Lemma encodable_dumps (d : dict) :
  Forall (fun kv => encodable_str (fst kv) = true /\
                    encodable_str (snd kv) = true) d ->
  encodable_str (json.dumps d) = true.
Proof.
  intros H. unfold json.dumps. simpl.
  rewrite encodable_str_app, andb_true_iff. split; [|reflexivity].
  apply encodable_join; [reflexivity|].
  apply Forall_map. eapply Forall_impl; [exact H|].
  intros kv [Hk Hv]. now apply encodable_item.
Qed.

(** ** Reading back what [json.dumps] writes *)

Import RFC8259.

Lemma hex4_hex_digit c :
  c < 32 ->
  hex4 48 48 (json.hex_digit (c / 16)) (json.hex_digit (c mod 16)) = Some c.
Proof.
  intros H. destruct c as [|q]; [reflexivity|].
  do 5 (destruct q as [q|q|]; try reflexivity; try lia).
Qed.

Lemma read_chars_plain c tail :
  c <> 34 -> c <> 92 -> 32 <= c ->
  read_chars (c :: tail) =
  '(cs, rest) ← read_chars tail; Some (c :: cs, rest).
Proof.
  intros H1 H2 H3. simpl.
  apply N.eqb_neq in H1, H2. apply N.ltb_ge in H3.
  now rewrite H1, H2, H3.
Qed.

(** The reader undoes the escape of one character. *)
Lemma read_chars_escape_char c tail :
  read_chars (json.escape_char c ++ tail) =
  '(cs, rest) ← read_chars tail; Some (c :: cs, rest).
Proof.
  unfold json.escape_char.
  repeat match goal with
    | |- context [if ?x =? ?y then _ else _] =>
        destruct (N.eqb_spec x y); [subst; reflexivity|]
    end.
  destruct (c <? 32) eqn:Hlt; nbool.
  - cbn [app read_chars]. cbn [N.eqb Pos.eqb].
    rewrite (hex4_hex_digit _ Hlt). reflexivity.
  - now apply read_chars_plain.
Qed.

Lemma read_chars_escape s rest :
  read_chars (flat_map json.escape_char s ++ 34 :: rest) = Some (s, rest).
Proof.
  induction s as [|c s IH]; [reflexivity|].
  cbn [flat_map]. rewrite <- app_assoc, read_chars_escape_char, IH.
  reflexivity.
Qed.

Lemma read_string_basestring s rest :
  read_string (json.encode_basestring s ++ rest) = Some (s, rest).
Proof.
  unfold json.encode_basestring. rewrite <- !app_assoc.
  cbn [app read_string]. cbn [N.eqb Pos.eqb]. apply read_chars_escape.
Qed.

Lemma read_value_basestring fuel s rest :
  read_value (S fuel) (json.encode_basestring s ++ rest) =
  Some (String s, rest).
Proof.
  unfold json.encode_basestring. rewrite <- !app_assoc.
  cbn [app read_value]. cbn [N.eqb Pos.eqb].
  now rewrite read_chars_escape.
Qed.

Lemma skip_ws_head c s : is_ws c = false -> skip_ws (c :: s) = c :: s.
Proof. intros H. simpl. now rewrite H. Qed.

Lemma skip_ws_basestring s rest :
  skip_ws (json.encode_basestring s ++ rest) =
  json.encode_basestring s ++ rest.
Proof. now apply skip_ws_head. Qed.

Lemma read_members_S fuel s :
  read_members (S fuel) s =
  '(k, s1) ← read_string s;
  match skip_ws s1 with
  | c :: s2 =>
      if c =? 58 then
        '(v, s3) ← read_value fuel (skip_ws s2);
        match skip_ws s3 with
        | c' :: s4 =>
            if c' =? 125 then Some ([(k, v)], s4)
            else if c' =? 44 then
              '(ms, rest) ← read_members fuel (skip_ws s4);
              Some ((k, v) :: ms, rest)
            else None
        | [] => None
        end
      else None
  | [] => None
  end.
Proof. reflexivity. Qed.

(** One item, followed by whatever [tail] starts with. *)
Lemma read_members_item fuel kv tail :
  read_members (S (S fuel)) (json.encode_item kv ++ tail) =
  match skip_ws tail with
  | c' :: s4 =>
      if c' =? 125 then
        Some ([(fst kv, String (snd kv))], s4)
      else if c' =? 44 then
        '(ms, rest) ← read_members (S fuel) (skip_ws s4);
        Some ((fst kv, String (snd kv)) :: ms, rest)
      else None
  | [] => None
  end.
Proof.
  rewrite read_members_S. unfold json.encode_item, json.key_separator.
  rewrite <- !app_assoc, read_string_basestring.
  cbn [mbind option_bind app]. rewrite skip_ws_head by reflexivity.
  cbn [N.eqb Pos.eqb]. rewrite skip_ws_basestring, read_value_basestring.
  reflexivity.
Qed.

Lemma join_cons_cons sep part part' parts :
  json.join sep (part :: part' :: parts) =
  part ++ sep ++ json.join sep (part' :: parts).
Proof. reflexivity. Qed.

Lemma join_items_head kv (d : dict) :
  exists tail,
    json.join json.item_separator (map json.encode_item (kv :: d)) =
    34 :: tail.
Proof.
  destruct d as [|kv' d'];
    [cbn [map json.join] | cbn [map]; rewrite join_cons_cons];
    unfold json.encode_item, json.encode_basestring; cbn [app]; eauto.
Qed.

(** The reader returns the items of a non-empty dict, in order. *)
Lemma read_members_items (d : dict) : forall kv fuel rest,
  (length d < fuel)%nat ->
  read_members (S fuel)
    (json.join json.item_separator (map json.encode_item (kv :: d))
       ++ 125 :: rest) =
  Some (map (fun kv => (fst kv, String (snd kv))) (kv :: d), rest).
Proof.
  induction d as [|kv' d IH]; intros kv fuel rest Hfuel.
  - destruct fuel as [|fuel]; [simpl in Hfuel; lia|].
    cbn [map json.join]. rewrite read_members_item.
    rewrite skip_ws_head by reflexivity. reflexivity.
  - destruct fuel as [|fuel]; [simpl in Hfuel; lia|].
    cbn [map]. rewrite join_cons_cons. fold (map json.encode_item d).
    rewrite <- !app_assoc, read_members_item.
    unfold json.item_separator. cbn [app].
    rewrite skip_ws_head by reflexivity. cbn [N.eqb Pos.eqb].
    change (json.encode_item kv' :: map json.encode_item d)
      with (map json.encode_item (kv' :: d)).
    destruct (join_items_head kv' d) as [tail Htail].
    change [44] with json.item_separator.
    rewrite Htail at 1. cbn [app]. rewrite skip_ws_head by reflexivity.
    change (34 :: tail ++ 125 :: rest) with ((34 :: tail) ++ 125 :: rest).
    rewrite <- Htail, IH by (simpl in Hfuel; lia).
    reflexivity.
Qed.

Lemma length_join_items (d : dict) :
  (length d <=
   length (json.join json.item_separator (map json.encode_item d)))%nat.
Proof.
  induction d as [|kv d IH]; [reflexivity|].
  destruct d as [|kv' d'].
  - cbn. lia.
  - cbn [map]. rewrite join_cons_cons, !length_app.
    cbn [map] in IH. cbn [length] in *.
    assert (1 <= length (json.encode_item kv))%nat; [|lia].
    unfold json.encode_item, json.encode_basestring. cbn. lia.
Qed.

(** Every dict that [json.dumps] writes reads back as the object of its
    items. *)
Lemma read_text_dumps (d : dict) :
  read_text (json.dumps d) = Some (json_of_dict d).
Proof.
  unfold read_text, json.dumps, json_of_dict.
  destruct d as [|kv d]; [reflexivity|].
  pose proof (length_join_items (kv :: d)) as Hlen.
  destruct (join_items_head kv d) as [tail Htail].
  set (items := json.join json.item_separator
                  (map json.encode_item (kv :: d))) in *.
  change ([123] ++ items ++ [125]) with (123 :: items ++ [125]).
  rewrite skip_ws_head by reflexivity.
  cbn [read_value length]. cbn [N.eqb Pos.eqb].
  rewrite Htail at 1. cbn [app]. rewrite skip_ws_head by reflexivity.
  cbn [N.eqb Pos.eqb].
  change (34 :: tail ++ [125]) with ((34 :: tail) ++ [125]).
  rewrite <- Htail, length_app. cbn [length] in *.
  subst items. rewrite read_members_items by lia.
  reflexivity.
Qed.

(** ** The route *)

Lemma bind_Return {A B} (m : py A) (f : A -> py B) p a p' :
  m p = (Return a, p') -> (x ← m; f x) p = f a p'.
Proof. intros H. unfold mbind, py_bind, bind. now rewrite H. Qed.

Lemma jsonable_encoder_config_snapshot env :
  fastapi.jsonable_encoder (config_snapshot env) = config_snapshot env.
Proof. reflexivity. Qed.

Lemma request_handler_config req p :
  fastapi.request_handler config_route req p =
  (match fastapi.render (config_snapshot (environ p)) with
   | Return b => Return (Response 200 (lit "application/json") b)
   | Raise e => Raise e
   end, p).
Proof.
  unfold fastapi.request_handler, config_route. cbn [endpoint fastapi.app_get].
  rewrite (bind_Return _ _ _ _ _ (get_config_spec p)).
  unfold fastapi.JSONResponse. rewrite jsonable_encoder_config_snapshot.
  cbn [route_status_code default].
  destruct (fastapi.render _); reflexivity.
Qed.

Lemma GET_config_spec req p :
  GET_config req p = (Return (config_response (environ p)), p).
Proof.
  unfold GET_config, fastapi.ServerErrorMiddleware, config_response.
  rewrite request_handler_config.
  destruct (fastapi.render _); reflexivity.
Qed.

Lemma encodable_config_snapshot env :
  encodable_config env ->
  Forall (fun kv => encodable_str (fst kv) = true /\
                    encodable_str (snd kv) = true)
    (config_snapshot env).
Proof.
  intros H. unfold config_snapshot. apply Forall_map, Forall_forall.
  intros key Hkey. cbn [fst snd]. split; [|now apply H].
  each_config_key Hkey; reflexivity.
Qed.

Lemma render_config_snapshot env :
  encodable_config env ->
  exists b, fastapi.render (config_snapshot env) = Return b.
Proof.
  intros H. apply encode_is_Return, encodable_dumps.
  now apply encodable_config_snapshot.
Qed.

(** A 200 answer carries the handler's dict as a JSON object. *)
Lemma GET_config_200_body req p r :
  result (GET_config req) p = Return r -> status_code r = 200 ->
  body_reads_as r (json_of_dict (config_snapshot (environ p))).
Proof.
  unfold result. rewrite GET_config_spec. cbn [fst]. intros [= <-].
  unfold config_response.
  destruct (fastapi.render _) as [b|e] eqn:Hrender; cbn [status_code].
  - intros _. exists (json.dumps (config_snapshot (environ p))).
    split; [exact Hrender | apply read_text_dumps].
  - discriminate.
Qed.

Lemma object_get_json_of_dict (d : dict) key :
  object_get (json_of_dict d) key = String <$> dict_get d key.
Proof.
  unfold json_of_dict, object_get.
  induction d as [|[k v] d IH]; [reflexivity|].
  cbn [map find fst snd dict_get].
  destruct (decide (k = key)) as [Heq|Hne].
  - now rewrite bool_decide_eq_true_2.
  - now rewrite bool_decide_eq_false_2.
Qed.

Lemma object_keys_json_of_dict (d : dict) :
  object_keys (json_of_dict d) = dict_keys d.
Proof.
  unfold json_of_dict, object_keys, dict_keys. rewrite map_map.
  reflexivity.
Qed.

(** ** The statements of the specification *)

Lemma config_key_1 : COSMOS_DB_ENDPOINT ∈ config_keys.
Proof. apply elem_of_config_keys. tauto. Qed.

Lemma config_key_2 : AIDIAGEXPERT_ENDPOINT ∈ config_keys.
Proof. apply elem_of_config_keys. tauto. Qed.

Lemma config_key_3 : AIDIAGEXPERT_KEY ∈ config_keys.
Proof. apply elem_of_config_keys. tauto. Qed.

Lemma config_key_4 : AZURE_STORAGE_CONNECTION_STRING_1 ∈ config_keys.
Proof. apply elem_of_config_keys. tauto. Qed.

Lemma result_get_config p :
  result get_config p = Return (config_snapshot (environ p)).
Proof. unfold result. now rewrite get_config_spec. Qed.

Lemma result_GET_config req p :
  result (GET_config req) p = Return (config_response (environ p)).
Proof. unfold result. now rewrite GET_config_spec. Qed.



(** C5, as amended: in every environment whose values for the four keys
    are encodable in UTF-8 (they hold no surrogate), every exchange is
    answered with status 200, content type [application/json] and a body
    that is valid JSON. *)
Theorem GET_config_ok_when_encodable (req : request) (p : process) :
  encodable_config (environ p) ->
  exists r,
    result (GET_config req) p = Return r /\
    status_code r = 200 /\
    content_type r = lit "application/json" /\
    valid_body (body r).
Proof.
  intros Henc. exists (config_response (environ p)).
  split; [apply result_GET_config|].
  unfold config_response.
  destruct (render_config_snapshot _ Henc) as [b Hb]. rewrite Hb.
  cbn [status_code content_type body].
  split; [reflexivity|]. split; [reflexivity|].
  exists (json.dumps (config_snapshot (environ p))).
  split; [exact Hb|]. rewrite read_text_dumps. eauto.
Qed.

Lemma GET_config_ok_when_fully_set :
  encodable_config (environ environment_fully_set) /\
  exists r,
    result (GET_config plain_request) environment_fully_set = Return r /\
    status_code r = 200 /\
    content_type r = lit "application/json" /\
    valid_body (body r).
Proof.
  assert (Henc : encodable_config (environ environment_fully_set)).
  { intros key Hkey. each_config_key Hkey; reflexivity. }
  split; [exact Henc|].
  exact (GET_config_ok_when_encodable plain_request
           environment_fully_set Henc).
Defined.

(** C5, as stated, fails: when [COSMOS_DB_ENDPOINT] holds a byte that is
    not UTF-8, the value read is a lone surrogate, [render] raises
    [UnicodeEncodeError] and the exchange is answered with status 500 and
    a plain-text body. *)
Lemma GET_config_undecodable_byte_is_500 :
  result (GET_config plain_request) environment_with_undecodable_byte =
    Return fastapi.internal_server_error /\
  ~ (exists r,
       result (GET_config plain_request) environment_with_undecodable_byte =
         Return r /\
       status_code r = 200 /\
       content_type r = lit "application/json" /\
       valid_body (body r)).
Proof.
  assert (H : result (GET_config plain_request)
                environment_with_undecodable_byte =
              Return fastapi.internal_server_error).
  { rewrite result_GET_config. reflexivity. }
  split; [exact H|].
  intros (r & Hr & H200 & _). rewrite H in Hr.
  injection Hr as <-. discriminate H200.
Qed.

(** C8: a call of the handler, and a whole exchange, leave the process
    state as they found it: the environment is read and not written. *)
Theorem GET_config_leaves_process_unchanged (req : request) (p : process) :
  final get_config p = p /\ final (GET_config req) p = p.
Proof.
  unfold final. now rewrite get_config_spec, GET_config_spec.
Qed.

(** C10: two environments that differ only in that one of the four
    variables is set to the literal [NOT_SET] in the first and absent from
    the second give the same dict and the same response. *)
Theorem GET_config_sentinel_same_as_unset
    (req : request) (p1 p2 : process) (key : str) :
  key ∈ config_keys ->
  environ p1 !! key = Some NOT_SET ->
  environ p2 !! key = None ->
  (forall other, other <> key -> environ p1 !! other = environ p2 !! other) ->
  result get_config p1 = result get_config p2 /\
  result (GET_config req) p1 = result (GET_config req) p2.
Proof.
  intros _ Hsentinel Habsent Hother.
  assert (Hsame : config_snapshot (environ p1) = config_snapshot (environ p2)).
  { unfold config_snapshot. apply map_ext. intros k. f_equal.
    unfold lookup_or_sentinel. destruct (decide (k = key)) as [->|Hne].
    - now rewrite Hsentinel, Habsent.
    - now rewrite (Hother k Hne). }
  rewrite !result_get_config, !result_GET_config.
  unfold config_response. now rewrite Hsame.
Qed.

Lemma GET_config_sentinel_same_as_empty_environment :
  AIDIAGEXPERT_KEY ∈ config_keys /\
  environ (process_of [(AIDIAGEXPERT_KEY, NOT_SET)]) !! AIDIAGEXPERT_KEY =
    Some NOT_SET /\
  environ empty_environment !! AIDIAGEXPERT_KEY = None /\
  result get_config (process_of [(AIDIAGEXPERT_KEY, NOT_SET)]) =
    result get_config empty_environment /\
  result (GET_config plain_request) (process_of [(AIDIAGEXPERT_KEY, NOT_SET)]) =
    result (GET_config plain_request) empty_environment.
Proof.
  split; [exact config_key_3|]. split; [reflexivity|]. split; [reflexivity|].
  apply (GET_config_sentinel_same_as_unset plain_request
           (process_of [(AIDIAGEXPERT_KEY, NOT_SET)]) empty_environment
           AIDIAGEXPERT_KEY config_key_3);
    [reflexivity | reflexivity |].
  intros other Hother. unfold process_of, empty_environment. cbn.
  now rewrite lookup_insert_ne.
Defined.

(** ** The amendment of C5 is tight *)

Lemma encodable_escape_char_inv c :
  encodable_str (json.escape_char c) = true -> utf8.encodable c = true.
Proof.
  unfold json.escape_char.
  repeat match goal with
    | |- context [if ?x =? ?y then _ else _] =>
        destruct (N.eqb_spec x y);
        [subst; intros _; reflexivity|]
    end.
  destruct (c <? 32) eqn:Hlt; nbool.
  - intros _. apply encodable_below_surrogates. lia.
  - simpl. now rewrite andb_true_r.
Qed.

Lemma encodable_escape_inv s :
  encodable_str (flat_map json.escape_char s) = true ->
  encodable_str s = true.
Proof.
  induction s as [|c s IH]; [reflexivity|].
  cbn [flat_map]. rewrite encodable_str_app. intros H.
  apply andb_true_iff in H. destruct H as [Hc Hs].
  simpl. now rewrite (encodable_escape_char_inv _ Hc), IH.
Qed.

Lemma encodable_basestring_inv s :
  encodable_str (json.encode_basestring s) = true ->
  encodable_str s = true.
Proof.
  unfold json.encode_basestring. rewrite !encodable_str_app.
  intros H. apply andb_true_iff in H. destruct H as [_ H].
  apply andb_true_iff in H. destruct H as [H _].
  now apply encodable_escape_inv.
Qed.

Lemma encodable_join_inv sep parts :
  encodable_str (json.join sep parts) = true ->
  Forall (fun part => encodable_str part = true) parts.
Proof.
  induction parts as [|part parts IH]; [constructor|].
  destruct parts as [|part' parts'].
  - cbn [json.join]. intros H. now repeat constructor.
  - rewrite join_cons_cons, !encodable_str_app. intros H.
    apply andb_true_iff in H. destruct H as [Hp H].
    apply andb_true_iff in H. destruct H as [_ H].
    constructor; auto.
Qed.

Lemma encodable_dumps_inv (d : dict) :
  encodable_str (json.dumps d) = true ->
  Forall (fun kv => encodable_str (snd kv) = true) d.
Proof.
  unfold json.dumps. rewrite !encodable_str_app. intros H.
  apply andb_true_iff in H. destruct H as [_ H].
  apply andb_true_iff in H. destruct H as [H _].
  apply encodable_join_inv in H.
  rewrite Forall_map in H. eapply Forall_impl; [exact H|].
  intros kv. cbn beta. unfold json.encode_item.
  rewrite !encodable_str_app. intros Hkv.
  apply andb_true_iff in Hkv. destruct Hkv as [_ Hkv].
  apply andb_true_iff in Hkv. destruct Hkv as [_ Hkv].
  now apply encodable_basestring_inv.
Qed.

(** The route answers 200 only in the environments of the amended C5. *)
Lemma GET_config_200_only_when_encodable req p r :
  result (GET_config req) p = Return r -> status_code r = 200 ->
  encodable_config (environ p).
Proof.
  rewrite result_GET_config. intros [= <-]. unfold config_response.
  destruct (fastapi.render _) as [b|e] eqn:Hrender; [|discriminate].
  intros _. apply encode_Return_encodable, encodable_dumps_inv in Hrender.
  unfold config_snapshot in Hrender. rewrite Forall_map in Hrender.
  rewrite Forall_forall in Hrender. exact Hrender.
Qed.

(** ** The scenarios of the specification *)

Example scenario_1_body :
  result (GET_config plain_request) environment_scenario_1 =
  Return
    (Response 200 (lit "application/json")
       (quoted ("{'COSMOS_DB_ENDPOINT':'https://example.cosmos.azure.com'," ++
                "'AIDIAGEXPERT_ENDPOINT':'NOT_SET'," ++
                "'AIDIAGEXPERT_KEY':'NOT_SET'," ++
                "'AZURE_STORAGE_CONNECTION_STRING_1':'NOT_SET'}"))).
Proof. rewrite result_GET_config. vm_compute. reflexivity. Qed.

Example scenario_2_body :
  result (GET_config plain_request) empty_environment =
  Return
    (Response 200 (lit "application/json")
       (quoted ("{'COSMOS_DB_ENDPOINT':'NOT_SET'," ++
                "'AIDIAGEXPERT_ENDPOINT':'NOT_SET'," ++
                "'AIDIAGEXPERT_KEY':'NOT_SET'," ++
                "'AZURE_STORAGE_CONNECTION_STRING_1':'NOT_SET'}"))).
Proof. rewrite result_GET_config. vm_compute. reflexivity. Qed.

Example scenario_4_body :
  result (GET_config plain_request)
    (process_of [(AIDIAGEXPERT_ENDPOINT, [])]) =
  Return
    (Response 200 (lit "application/json")
       (quoted ("{'COSMOS_DB_ENDPOINT':'NOT_SET'," ++
                "'AIDIAGEXPERT_ENDPOINT':''," ++
                "'AIDIAGEXPERT_KEY':'NOT_SET'," ++
                "'AZURE_STORAGE_CONNECTION_STRING_1':'NOT_SET'}"))).
Proof. rewrite result_GET_config. vm_compute. reflexivity. Qed.

(** * Further properties *)

(** ** UTF-8 encoding loses nothing *)

Lemma lor_continuation_mark x : x < 64 -> N.lor 0x80 x = 0x80 + x.
Proof.
  intros H. destruct x as [|q]; [reflexivity|].
  do 6 (destruct q as [q|q|]; try reflexivity; try lia).
Qed.

Lemma lor_lead_2 x : x < 32 -> N.lor 0xC0 x = 0xC0 + x.
Proof.
  intros H. destruct x as [|q]; [reflexivity|].
  do 5 (destruct q as [q|q|]; try reflexivity; try lia).
Qed.

Lemma lor_lead_3 x : x < 16 -> N.lor 0xE0 x = 0xE0 + x.
Proof.
  intros H. destruct x as [|q]; [reflexivity|].
  do 4 (destruct q as [q|q|]; try reflexivity; try lia).
Qed.

Lemma lor_lead_4 x : x < 8 -> N.lor 0xF0 x = 0xF0 + x.
Proof.
  intros H. destruct x as [|q]; [reflexivity|].
  do 3 (destruct q as [q|q|]; try reflexivity; try lia).
Qed.

Lemma continuation_arith c k :
  utf8.continuation c k = 0x80 + (c / 2 ^ k) mod 64.
Proof.
  unfold utf8.continuation. rewrite N.shiftr_div_pow2.
  change 0x3F with (N.ones 6). rewrite N.land_ones.
  apply lor_continuation_mark. now apply N.mod_lt.
Qed.

(** The bytes of one code point, in arithmetic. *)
Lemma encode_char_arith c :
  c <= 0x10FFFF ->
  utf8.encode_char c =
  if c <? 0x80 then [c]
  else if c <? 0x800 then [0xC0 + c / 64; 0x80 + c mod 64]
  else if c <? 0x10000 then
    [0xE0 + c / 4096; 0x80 + (c / 64) mod 64; 0x80 + c mod 64]
  else
    [0xF0 + c / 262144; 0x80 + (c / 4096) mod 64; 0x80 + (c / 64) mod 64;
     0x80 + c mod 64].
Proof.
  intros Hc. unfold utf8.encode_char.
  rewrite !continuation_arith, !N.shiftr_div_pow2.
  change (2 ^ 0) with 1. change (2 ^ 6) with 64.
  change (2 ^ 12) with 4096. change (2 ^ 18) with 262144.
  rewrite N.div_1_r.
  destruct (c <? 0x80) eqn:H1; [reflexivity|].
  destruct (c <? 0x800) eqn:H2; nbool.
  { rewrite lor_lead_2; [reflexivity|].
    apply N.Div0.div_lt_upper_bound. lia. }
  destruct (c <? 0x10000) eqn:H3; nbool.
  { rewrite lor_lead_3; [reflexivity|].
    apply N.Div0.div_lt_upper_bound. lia. }
  rewrite lor_lead_4; [reflexivity|].
  apply N.Div0.div_lt_upper_bound. lia.
Qed.

Lemma encodable_le c : utf8.encodable c = true -> c <= 0x10FFFF.
Proof. unfold utf8.encodable. intros H. nbool. assumption. Qed.

(** The first code point and the rest can be told from the bytes. *)
Lemma encode_char_inj c c' (t t' : bytes) :
  utf8.encodable c = true -> utf8.encodable c' = true ->
  utf8.encode_char c ++ t = utf8.encode_char c' ++ t' ->
  c = c' /\ t = t'.
Proof.
  intros Hc Hc'. apply encodable_le in Hc, Hc'.
  rewrite !encode_char_arith by assumption.
  pose proof (N.div_mod c 64 ltac:(lia)) as D1.
  pose proof (N.mod_lt c 64 ltac:(lia)) as M1.
  pose proof (N.div_mod (c / 64) 64 ltac:(lia)) as D2.
  pose proof (N.mod_lt (c / 64) 64 ltac:(lia)) as M2.
  pose proof (N.div_mod (c / 64 / 64) 64 ltac:(lia)) as D3.
  pose proof (N.mod_lt (c / 64 / 64) 64 ltac:(lia)) as M3.
  pose proof (N.div_mod c' 64 ltac:(lia)) as D1'.
  pose proof (N.mod_lt c' 64 ltac:(lia)) as M1'.
  pose proof (N.div_mod (c' / 64) 64 ltac:(lia)) as D2'.
  pose proof (N.mod_lt (c' / 64) 64 ltac:(lia)) as M2'.
  pose proof (N.div_mod (c' / 64 / 64) 64 ltac:(lia)) as D3'.
  pose proof (N.mod_lt (c' / 64 / 64) 64 ltac:(lia)) as M3'.
  replace (c / 4096) with (c / 64 / 64)
    by (rewrite N.Div0.div_div; reflexivity).
  replace (c / 262144) with (c / 64 / 64 / 64)
    by (rewrite !N.Div0.div_div; reflexivity).
  replace (c' / 4096) with (c' / 64 / 64)
    by (rewrite N.Div0.div_div; reflexivity).
  replace (c' / 262144) with (c' / 64 / 64 / 64)
    by (rewrite !N.Div0.div_div; reflexivity).
  destruct (c <? 0x80) eqn:H1; [|destruct (c <? 0x800) eqn:H2;
    [|destruct (c <? 0x10000) eqn:H3]];
  (destruct (c' <? 0x80) eqn:H1'; [|destruct (c' <? 0x800) eqn:H2';
    [|destruct (c' <? 0x10000) eqn:H3']]);
  nbool; cbn [app]; intros E; injection E as E; subst;
  try (split; [lia | congruence]); exfalso; lia.
Qed.

Lemma encode_char_not_nil c : utf8.encode_char c <> [].
Proof.
  unfold utf8.encode_char.
  repeat match goal with
    | |- context [if ?b then _ else _] => destruct b
    end; discriminate.
Qed.

(** [str.encode("utf-8")] is injective: a sequence of bytes is the
    encoding of at most one [str]. *)
Lemma encode_inj s : forall s' b,
  utf8.encode s = Return b -> utf8.encode s' = Return b -> s = s'.
Proof.
  induction s as [|c s IH]; intros [|c' s'] b; cbn [utf8.encode].
  - reflexivity.
  - intros [= <-].
    destruct (utf8.encodable c'); [|discriminate].
    destruct (utf8.encode s'); [|discriminate].
    intros [= E]. apply app_eq_nil in E.
    destruct E as [E _]. now apply encode_char_not_nil in E.
  - destruct (utf8.encodable c); [|discriminate].
    destruct (utf8.encode s); [|discriminate].
    intros [= <-] [= E]. symmetry in E. apply app_eq_nil in E.
    destruct E as [E _]. now apply encode_char_not_nil in E.
  - destruct (utf8.encodable c) eqn:Hc; [|discriminate].
    destruct (utf8.encode s) as [bs|] eqn:Hs; [|discriminate].
    destruct (utf8.encodable c') eqn:Hc'; [|discriminate].
    destruct (utf8.encode s') as [bs'|] eqn:Hs'; [|discriminate].
    intros [= <-] [= E].
    destruct (encode_char_inj _ _ _ _ Hc' Hc E) as [-> ->].
    f_equal. eapply IH; [reflexivity|]. exact Hs'.
Qed.

Lemma json_of_dict_inj (d1 d2 : dict) :
  json_of_dict d1 = json_of_dict d2 -> d1 = d2.
Proof.
  unfold json_of_dict. intros [= H]. revert d2 H.
  induction d1 as [|[k v] d1 IH]; intros [|[k' v'] d2]; cbn [map fst snd];
    intros H; try discriminate H; [reflexivity|].
  injection H as -> -> H. f_equal. now apply IH.
Qed.

Lemma dumps_inj (d1 d2 : dict) : json.dumps d1 = json.dumps d2 -> d1 = d2.
Proof.
  intros H. apply json_of_dict_inj.
  pose proof (read_text_dumps d1) as H1. rewrite H, read_text_dumps in H1.
  congruence.
Qed.

Lemma render_inj (d1 d2 : dict) b :
  fastapi.render d1 = Return b -> fastapi.render d2 = Return b -> d1 = d2.
Proof.
  unfold fastapi.render. intros H1 H2.
  apply dumps_inj. exact (encode_inj _ _ _ H1 H2).
Qed.

(** A body has at most one reading as a JSON value. *)
Lemma body_reads_as_unique r j1 j2 :
  body_reads_as r j1 -> body_reads_as r j2 -> j1 = j2.
Proof.
  intros (t1 & He1 & Hr1) (t2 & He2 & Hr2).
  rewrite (encode_inj _ _ _ He1 He2) in Hr1. congruence.
Qed.

Lemma config_snapshot_inj env1 env2 :
  config_snapshot env1 = config_snapshot env2 ->
  forall key, key ∈ config_keys ->
    lookup_or_sentinel env1 key = lookup_or_sentinel env2 key.
Proof.
  intros H key Hkey.
  pose proof (dict_get_config_snapshot env1 key Hkey) as H1.
  rewrite H, dict_get_config_snapshot in H1 by assumption.
  now injection H1.
Qed.


Lemma two_calls_spec between p p' :
  between p = (Return tt, p') ->
  result (two_calls between) p =
  Return (config_snapshot (environ p), config_snapshot (environ p')).
Proof.
  intros H. unfold result, two_calls.
  rewrite (bind_Return _ _ _ _ _ (get_config_spec p)).
  rewrite (bind_Return _ _ _ _ _ H).
  rewrite (bind_Return _ _ _ _ _ (get_config_spec p')).
  reflexivity.
Qed.

(** X1: two environments give the same dict exactly when they agree, for
    each of the four keys, on the value read (an absent variable reading
    as [NOT_SET]): the dict tells apart any two environments that differ
    in one of these values. *)
Theorem get_config_result_determines_values (p1 p2 : process) :
  result get_config p1 = result get_config p2 <->
  forall key, key ∈ config_keys ->
    lookup_or_sentinel (environ p1) key = lookup_or_sentinel (environ p2) key.
Proof.
  rewrite !result_get_config. split.
  - intros H. apply config_snapshot_inj. congruence.
  - intros H. f_equal. unfold config_snapshot.
    apply map_ext_in. intros key Hkey. apply list_elem_of_In in Hkey.
    now rewrite (H key Hkey).
Qed.

(** X3: the field of one of the four keys is [NOT_SET] exactly when the
    variable is absent or holds the literal [NOT_SET]; no other value is
    ever replaced by the sentinel. *)
Theorem get_config_sentinel_field_iff (p : process) (key : str) (d : dict) :
  key ∈ config_keys ->
  result get_config p = Return d ->
  (dict_get d key = Some NOT_SET <->
   environ p !! key = None \/ environ p !! key = Some NOT_SET).
Proof.
  intros Hkey Hd. rewrite result_get_config in Hd.
  assert (d = config_snapshot (environ p)) as -> by congruence.
  rewrite dict_get_config_snapshot by assumption.
  unfold lookup_or_sentinel.
  destruct (environ p !! key) as [v|]; cbn [default]; split.
  - intros H. right. exact H.
  - intros [H|H]; [discriminate H | exact H].
  - now left.
  - reflexivity.
Qed.

Lemma get_config_sentinel_field_iff_fully_set :
  AIDIAGEXPERT_KEY ∈ config_keys /\
  result get_config environment_fully_set =
    Return (config_snapshot (environ environment_fully_set)) /\
  (dict_get (config_snapshot (environ environment_fully_set))
     AIDIAGEXPERT_KEY = Some NOT_SET <->
   environ environment_fully_set !! AIDIAGEXPERT_KEY = None \/
   environ environment_fully_set !! AIDIAGEXPERT_KEY = Some NOT_SET).
Proof.
  split; [exact config_key_3|]. split; [reflexivity|].
  apply (get_config_sentinel_field_iff environment_fully_set
           AIDIAGEXPERT_KEY _ config_key_3).
  reflexivity.
Defined.

(** X4: two exchanges answered with status 200 and the same body were
    served from environments that agree on the value read for each of the
    four keys: escaping and encoding lose nothing, so a client can tell
    the four values from the body. *)
Theorem GET_config_body_determines_values
    (req1 req2 : request) (p1 p2 : process) (r1 r2 : response) :
  result (GET_config req1) p1 = Return r1 ->
  result (GET_config req2) p2 = Return r2 ->
  status_code r1 = 200 -> status_code r2 = 200 ->
  body r1 = body r2 ->
  forall key, key ∈ config_keys ->
    lookup_or_sentinel (environ p1) key = lookup_or_sentinel (environ p2) key.
Proof.
  rewrite !result_GET_config. unfold config_response.
  destruct (fastapi.render (config_snapshot (environ p1))) as [b1|] eqn:H1;
    destruct (fastapi.render (config_snapshot (environ p2))) as [b2|] eqn:H2;
    intros [= <-] [= <-]; cbn [status_code body]; try discriminate.
  intros _ _ <-. apply config_snapshot_inj.
  exact (render_inj _ _ _ H1 H2).
Qed.

Lemma GET_config_body_determines_values_example :
  result (GET_config plain_request) environment_with_empty_key =
    Return (config_response (environ environment_with_empty_key)) /\
  result (GET_config request_with_data) (process_of [(AIDIAGEXPERT_KEY, [])]) =
    Return (config_response (environ (process_of [(AIDIAGEXPERT_KEY, [])]))) /\
  status_code (config_response (environ environment_with_empty_key)) = 200 /\
  body (config_response (environ environment_with_empty_key)) =
    body (config_response (environ (process_of [(AIDIAGEXPERT_KEY, [])]))) /\
  forall key, key ∈ config_keys ->
    lookup_or_sentinel (environ environment_with_empty_key) key =
    lookup_or_sentinel (environ (process_of [(AIDIAGEXPERT_KEY, [])])) key.
Proof.
  split; [apply result_GET_config|]. split; [apply result_GET_config|].
  split; [reflexivity|]. split; [reflexivity|].
  apply (GET_config_body_determines_values
           plain_request request_with_data
           environment_with_empty_key (process_of [(AIDIAGEXPERT_KEY, [])])
           _ _ (result_GET_config _ _) (result_GET_config _ _));
    reflexivity.
Defined.

(** X5: every exchange is answered, and in one of two ways: with status
    200 and content type [application/json] when the four values read are
    encodable in UTF-8, and with the fixed 500 plain-text response when
    one of them is not. *)
Theorem GET_config_answers_200_or_500 (req : request) (p : process) :
  exists r,
    result (GET_config req) p = Return r /\
    ((encodable_config (environ p) /\ status_code r = 200 /\
      content_type r = lit "application/json") \/
     (~ encodable_config (environ p) /\
      r = fastapi.internal_server_error)).
Proof.
  exists (config_response (environ p)).
  split; [apply result_GET_config|].
  pose proof (GET_config_200_only_when_encodable req p
                (config_response (environ p)) (result_GET_config req p))
    as H200.
  unfold config_response in *.
  destruct (fastapi.render (config_snapshot (environ p))) as [b|e] eqn:Hr.
  - left. cbn [status_code content_type] in *. auto.
  - right. split; [|reflexivity].
    intros Henc. destruct (render_config_snapshot _ Henc) as [b Hb].
    congruence.
Qed.

Lemma serve_all_spec reqs p :
  serve_all reqs p =
  (Return (replicate (length reqs) (config_response (environ p))), p).
Proof.
  induction reqs as [|req reqs IH]; [reflexivity|].
  cbn [serve_all length replicate].
  rewrite (bind_Return _ _ _ _ _ (GET_config_spec req p)).
  rewrite (bind_Return _ _ _ _ _ IH). reflexivity.
Qed.

(** X6: any number of exchanges served one after the other in a process
    are all answered with the same response, the one a single exchange
    gets, and leave the environment as it was. *)
Theorem serve_all_same_response (reqs : list request) (p : process) :
  exists r,
    (forall req, result (GET_config req) p = Return r) /\
    result (serve_all reqs) p = Return (replicate (length reqs) r) /\
    final (serve_all reqs) p = p.
Proof.
  exists (config_response (environ p)).
  split; [intros req; apply result_GET_config|].
  unfold result, final. now rewrite serve_all_spec.
Qed.

(** * The statements about the response, amended

    The dict that the handler returns is rendered by the framework, and
    the rendering raises when one of the four values read is not encodable
    in UTF-8.  The statements below give the handler's dict in every
    environment and the response in the environments whose four values are
    encodable. *)

Lemma NoDup_config_keys : NoDup config_keys.
Proof.
  unfold config_keys. repeat (apply NoDup_cons; split);
    [| | | | apply NoDup_nil_2];
    rewrite ?elem_of_cons, ?elem_of_nil; intros H;
    repeat (destruct H as [H|H]); try discriminate H; exact H.
Qed.

(** The answer of the route when the four values are encodable. *)
Lemma GET_config_encodable req p :
  encodable_config (environ p) ->
  exists r,
    result (GET_config req) p = Return r /\
    result (fastapi.request_handler config_route req) p = Return r /\
    status_code r = 200 /\
    content_type r = lit "application/json" /\
    body_reads_as r (json_of_dict (config_snapshot (environ p))).
Proof.
  intros Henc. destruct (render_config_snapshot _ Henc) as [b Hb].
  exists (Response 200 (lit "application/json") b).
  rewrite result_GET_config. unfold result, config_response.
  rewrite request_handler_config, Hb. cbn [fst status_code content_type].
  repeat split.
  exists (json.dumps (config_snapshot (environ p))).
  split; [exact Hb | apply read_text_dumps].
Qed.

(** The body of the 500 answer is no JSON text. *)
Lemma internal_server_error_not_json j :
  ~ body_reads_as fastapi.internal_server_error j.
Proof.
  intros (text & Henc & Hread).
  assert (Hplain : utf8.encode (lit "Internal Server Error") =
                   Return (body fastapi.internal_server_error))
    by reflexivity.
  rewrite (encode_inj _ _ _ Henc Hplain) in Hread.
  vm_compute in Hread. discriminate Hread.
Qed.

Lemma no_json_in_internal_server_error req p (P : value -> Prop) :
  result (GET_config req) p = Return fastapi.internal_server_error ->
  ~ (exists r, result (GET_config req) p = Return r /\
               exists j, body_reads_as r j /\ P j).
Proof.
  intros H500 (r & Hr & j & Hj & _). rewrite H500 in Hr.
  injection Hr as <-. exact (internal_server_error_not_json j Hj).
Qed.

(** C1, as amended: for each of the four keys, when the environment holds
    the value [v] for it at the time of the call (the empty string
    included), the dict the handler returns has [v] under that key; and
    when the four values read are encodable in UTF-8, the exchange is
    answered with status 200 and the JSON object of the body has [v] as
    the member of that key. *)
Theorem GET_config_field_of_set_variable (p : process) (key v : str) :
  key ∈ config_keys -> environ p !! key = Some v ->
  (exists d, result get_config p = Return d /\ dict_get d key = Some v) /\
  (encodable_config (environ p) ->
   forall req, exists r,
     result (GET_config req) p = Return r /\ status_code r = 200 /\
     exists j, body_reads_as r j /\ object_get j key = Some (String v)).
Proof.
  intros Hkey Hv.
  assert (Hget : dict_get (config_snapshot (environ p)) key = Some v).
  { rewrite dict_get_config_snapshot by assumption.
    unfold lookup_or_sentinel. now rewrite Hv. }
  split.
  - exists (config_snapshot (environ p)).
    split; [apply result_get_config | exact Hget].
  - intros Henc req.
    destruct (GET_config_encodable req p Henc) as (r & Hr & _ & H200 & _ & Hj).
    exists r. split; [exact Hr|]. split; [exact H200|].
    eexists. split; [exact Hj|].
    now rewrite object_get_json_of_dict, Hget.
Qed.

Lemma GET_config_field_of_empty_string :
  AIDIAGEXPERT_KEY ∈ config_keys /\
  environ environment_with_empty_key !! AIDIAGEXPERT_KEY = Some [] /\
  encodable_config (environ environment_with_empty_key) /\
  (exists d,
     result get_config environment_with_empty_key = Return d /\
     dict_get d AIDIAGEXPERT_KEY = Some []) /\
  forall req, exists r,
    result (GET_config req) environment_with_empty_key = Return r /\
    status_code r = 200 /\
    exists j,
      body_reads_as r j /\ object_get j AIDIAGEXPERT_KEY = Some (String []).
Proof.
  assert (Henc : encodable_config (environ environment_with_empty_key)).
  { intros key Hkey. each_config_key Hkey; reflexivity. }
  split; [exact config_key_3|]. split; [reflexivity|]. split; [exact Henc|].
  destruct (GET_config_field_of_set_variable
              environment_with_empty_key AIDIAGEXPERT_KEY []
              config_key_3 eq_refl) as [Hdict Hresponse].
  split; [exact Hdict | exact (Hresponse Henc)].
Defined.

(** C1, as stated, fails: with [AIDIAGEXPERT_KEY] set to a byte that is
    not UTF-8, the exchange is answered with the 500 response, whose body
    has no field at all. *)
Lemma GET_config_no_field_for_undecodable_value :
  AIDIAGEXPERT_KEY ∈ config_keys /\
  environ environment_with_undecodable_key !! AIDIAGEXPERT_KEY =
    Some [0xDCFF] /\
  ~ (exists r,
       result (GET_config plain_request) environment_with_undecodable_key =
         Return r /\
       exists j,
         body_reads_as r j /\
         object_get j AIDIAGEXPERT_KEY = Some (String [0xDCFF])).
Proof.
  split; [exact config_key_3|]. split; [reflexivity|].
  apply no_json_in_internal_server_error.
  rewrite result_GET_config. reflexivity.
Qed.

(** C2, as amended: for each of the four keys, when the variable is absent
    from the environment at the time of the call, the dict the handler
    returns has the literal [NOT_SET] under that key; and when the four
    values read are encodable in UTF-8, the exchange is answered with
    status 200 and the JSON object of the body has [NOT_SET] as the member
    of that key. *)
Theorem GET_config_field_of_unset_variable (p : process) (key : str) :
  key ∈ config_keys -> environ p !! key = None ->
  (exists d,
     result get_config p = Return d /\ dict_get d key = Some NOT_SET) /\
  (encodable_config (environ p) ->
   forall req, exists r,
     result (GET_config req) p = Return r /\ status_code r = 200 /\
     exists j, body_reads_as r j /\ object_get j key = Some (String NOT_SET)).
Proof.
  intros Hkey Hv.
  assert (Hget : dict_get (config_snapshot (environ p)) key = Some NOT_SET).
  { rewrite dict_get_config_snapshot by assumption.
    unfold lookup_or_sentinel. now rewrite Hv. }
  split.
  - exists (config_snapshot (environ p)).
    split; [apply result_get_config | exact Hget].
  - intros Henc req.
    destruct (GET_config_encodable req p Henc) as (r & Hr & _ & H200 & _ & Hj).
    exists r. split; [exact Hr|]. split; [exact H200|].
    eexists. split; [exact Hj|].
    now rewrite object_get_json_of_dict, Hget.
Qed.

Lemma GET_config_field_in_empty_environment :
  COSMOS_DB_ENDPOINT ∈ config_keys /\
  environ empty_environment !! COSMOS_DB_ENDPOINT = None /\
  encodable_config (environ empty_environment) /\
  (exists d,
     result get_config empty_environment = Return d /\
     dict_get d COSMOS_DB_ENDPOINT = Some NOT_SET) /\
  forall req, exists r,
    result (GET_config req) empty_environment = Return r /\
    status_code r = 200 /\
    exists j,
      body_reads_as r j /\
      object_get j COSMOS_DB_ENDPOINT = Some (String NOT_SET).
Proof.
  assert (Henc : encodable_config (environ empty_environment)).
  { intros key Hkey. each_config_key Hkey; reflexivity. }
  split; [exact config_key_1|]. split; [reflexivity|]. split; [exact Henc|].
  destruct (GET_config_field_of_unset_variable
              empty_environment COSMOS_DB_ENDPOINT
              config_key_1 eq_refl) as [Hdict Hresponse].
  split; [exact Hdict | exact (Hresponse Henc)].
Defined.

(** C2, as stated, fails: [COSMOS_DB_ENDPOINT] is absent, yet with
    [AIDIAGEXPERT_KEY] set to a byte that is not UTF-8 the exchange is
    answered with the 500 response, whose body has no field at all. *)
Lemma GET_config_no_sentinel_field_beside_undecodable_value :
  COSMOS_DB_ENDPOINT ∈ config_keys /\
  environ environment_with_undecodable_key !! COSMOS_DB_ENDPOINT = None /\
  ~ (exists r,
       result (GET_config plain_request) environment_with_undecodable_key =
         Return r /\
       exists j,
         body_reads_as r j /\
         object_get j COSMOS_DB_ENDPOINT = Some (String NOT_SET)).
Proof.
  split; [exact config_key_1|]. split; [reflexivity|].
  apply no_json_in_internal_server_error.
  rewrite result_GET_config. reflexivity.
Qed.

(** C3, as amended: in every environment, whatever other variables it
    holds, the dict the handler returns has exactly the four keys, each
    once; and when the four values read are encodable in UTF-8, the
    exchange is answered with status 200 and the JSON object of the body
    has exactly these four members. *)
Theorem GET_config_has_exactly_config_keys (p : process) :
  (exists d,
     result get_config p = Return d /\
     (forall key, key ∈ dict_keys d <-> key ∈ config_keys) /\
     NoDup (dict_keys d) /\ length d = 4%nat) /\
  (encodable_config (environ p) ->
   forall req, exists r,
     result (GET_config req) p = Return r /\ status_code r = 200 /\
     exists members,
       body_reads_as r (Object members) /\
       NoDup (map fst members) /\ length members = 4%nat /\
       forall key, key ∈ map fst members <-> key ∈ config_keys).
Proof.
  split.
  - exists (config_snapshot (environ p)).
    split; [apply result_get_config|].
    rewrite dict_keys_config_snapshot.
    split; [tauto|]. split; [exact NoDup_config_keys | reflexivity].
  - intros Henc req.
    destruct (GET_config_encodable req p Henc) as (r & Hr & _ & H200 & _ & Hj).
    exists r. split; [exact Hr|]. split; [exact H200|].
    eexists. split; [exact Hj|].
    rewrite map_map. cbn [fst].
    change (map (fun kv : str * str => fst kv) (config_snapshot (environ p)))
      with config_keys.
    split; [exact NoDup_config_keys|]. split; [reflexivity | tauto].
Qed.

Lemma GET_config_has_exactly_config_keys_when_fully_set :
  encodable_config (environ environment_fully_set) /\
  (exists d,
     result get_config environment_fully_set = Return d /\
     (forall key, key ∈ dict_keys d <-> key ∈ config_keys) /\
     NoDup (dict_keys d) /\ length d = 4%nat) /\
  forall req, exists r,
    result (GET_config req) environment_fully_set = Return r /\
    status_code r = 200 /\
    exists members,
      body_reads_as r (Object members) /\
      NoDup (map fst members) /\ length members = 4%nat /\
      forall key, key ∈ map fst members <-> key ∈ config_keys.
Proof.
  assert (Henc : encodable_config (environ environment_fully_set)).
  { intros key Hkey. each_config_key Hkey; reflexivity. }
  split; [exact Henc|].
  destruct (GET_config_has_exactly_config_keys environment_fully_set)
    as [Hdict Hresponse].
  split; [exact Hdict | exact (Hresponse Henc)].
Defined.

(** C3, as stated, fails: with [COSMOS_DB_ENDPOINT] set to a byte that is
    not UTF-8, the exchange is answered with the 500 response, whose body
    is no JSON object and has none of the four keys. *)
Lemma GET_config_no_keys_for_undecodable_value :
  ~ (exists r,
       result (GET_config plain_request) environment_with_undecodable_byte =
         Return r /\
       exists j,
         body_reads_as r j /\
         forall key, key ∈ object_keys j <-> key ∈ config_keys).
Proof.
  apply no_json_in_internal_server_error.
  rewrite result_GET_config. reflexivity.
Qed.

Lemma two_exchanges_spec req1 req2 between p p' :
  between p = (Return tt, p') ->
  result (two_exchanges req1 req2 between) p =
  Return (config_response (environ p), config_response (environ p')).
Proof.
  intros H. unfold result, two_exchanges.
  rewrite (bind_Return _ _ _ _ _ (GET_config_spec req1 p)).
  rewrite (bind_Return _ _ _ _ _ H).
  rewrite (bind_Return _ _ _ _ _ (GET_config_spec req2 p')).
  reflexivity.
Qed.

(** C6, as amended: the environment is read at each call.  When a
    statement run between two successive calls returns normally and leaves
    the process in a changed environment, the dict of the first call holds
    for each of the four keys what the environment held before, and the
    dict of the second call what it holds after; and when the four values
    read after the change are encodable in UTF-8, the second exchange is
    answered with status 200 and the JSON object of its body has the new
    value as the member of that key ([NOT_SET] when the variable is then
    absent). *)
Theorem GET_config_reads_environment_at_call_time
    (req1 req2 : request) (between : py unit) (p p' : process) (key : str) :
  key ∈ config_keys -> between p = (Return tt, p') ->
  (exists d1 d2,
     result (two_calls between) p = Return (d1, d2) /\
     dict_get d1 key = Some (lookup_or_sentinel (environ p) key) /\
     dict_get d2 key = Some (lookup_or_sentinel (environ p') key)) /\
  (encodable_config (environ p') ->
   exists r1 r2,
     result (two_exchanges req1 req2 between) p = Return (r1, r2) /\
     result (GET_config req1) p = Return r1 /\
     status_code r2 = 200 /\
     exists j,
       body_reads_as r2 j /\
       object_get j key = Some (String (lookup_or_sentinel (environ p') key))).
Proof.
  intros Hkey Hbetween. split.
  - exists (config_snapshot (environ p)), (config_snapshot (environ p')).
    split; [now apply two_calls_spec|].
    split; now apply dict_get_config_snapshot.
  - intros Henc.
    destruct (GET_config_encodable req2 p' Henc)
      as (r2 & Hr2 & _ & H200 & _ & Hj).
    rewrite result_GET_config in Hr2. injection Hr2 as <-.
    exists (config_response (environ p)), (config_response (environ p')).
    split; [now apply two_exchanges_spec|].
    split; [apply result_GET_config|]. split; [exact H200|].
    eexists. split; [exact Hj|].
    rewrite object_get_json_of_dict.
    now rewrite dict_get_config_snapshot by assumption.
Qed.

Lemma GET_config_sees_assignment_of_key :
  AIDIAGEXPERT_KEY ∈ config_keys /\
  encodable_config
    (<[AIDIAGEXPERT_KEY := lit "k3y"]> (environ environment_with_empty_key)) /\
  (exists d1 d2,
     result
       (two_calls
          (fun p =>
             (Return tt,
              Process (<[AIDIAGEXPERT_KEY := lit "k3y"]> (environ p)))))
       environment_with_empty_key = Return (d1, d2) /\
     dict_get d1 AIDIAGEXPERT_KEY = Some [] /\
     dict_get d2 AIDIAGEXPERT_KEY = Some (lit "k3y")) /\
  (exists r1 r2,
     result
       (two_exchanges plain_request request_with_data
          (fun p =>
             (Return tt,
              Process (<[AIDIAGEXPERT_KEY := lit "k3y"]> (environ p)))))
       environment_with_empty_key = Return (r1, r2) /\
     result (GET_config plain_request) environment_with_empty_key =
       Return r1 /\
     status_code r2 = 200 /\
     exists j,
       body_reads_as r2 j /\
       object_get j AIDIAGEXPERT_KEY = Some (String (lit "k3y"))).
Proof.
  assert (Henc : encodable_config
            (<[AIDIAGEXPERT_KEY := lit "k3y"]>
               (environ environment_with_empty_key))).
  { intros key Hkey. each_config_key Hkey; reflexivity. }
  split; [exact config_key_3|]. split; [exact Henc|].
  destruct (GET_config_reads_environment_at_call_time
              plain_request request_with_data
              (fun p =>
                 (Return tt,
                  Process (<[AIDIAGEXPERT_KEY := lit "k3y"]> (environ p))))
              environment_with_empty_key
              (Process (<[AIDIAGEXPERT_KEY := lit "k3y"]>
                          (environ environment_with_empty_key)))
              AIDIAGEXPERT_KEY config_key_3 eq_refl)
    as [Hdicts Hresponses].
  split; [exact Hdicts | exact (Hresponses Henc)].
Defined.

(** C6, as stated, fails: [COSMOS_DB_ENDPOINT] holds a byte that is not
    UTF-8 and [AIDIAGEXPERT_KEY], absent at the first call, is set between
    the two calls; both exchanges are answered with the same 500 response,
    and the second shows nothing of the change. *)
Lemma GET_config_change_unseen_beside_undecodable_value :
  environ environment_with_undecodable_byte !! AIDIAGEXPERT_KEY = None /\
  environ
    (final
       (two_exchanges plain_request plain_request
          (fun p =>
             (Return tt,
              Process (<[AIDIAGEXPERT_KEY := lit "k3y"]> (environ p)))))
       environment_with_undecodable_byte) !! AIDIAGEXPERT_KEY =
    Some (lit "k3y") /\
  result
    (two_exchanges plain_request plain_request
       (fun p =>
          (Return tt,
           Process (<[AIDIAGEXPERT_KEY := lit "k3y"]> (environ p)))))
    environment_with_undecodable_byte =
    Return (fastapi.internal_server_error, fastapi.internal_server_error) /\
  ~ (exists j, body_reads_as fastapi.internal_server_error j).
Proof.
  split; [reflexivity|]. split; [reflexivity|]. split.
  - erewrite two_exchanges_spec by reflexivity. reflexivity.
  - intros [j Hj]. exact (internal_server_error_not_json j Hj).
Qed.

(** C7, as amended: in every environment the handler returns a dict and
    raises nothing, the [KeyError] of a missing variable being caught
    inside [os.getenv] and the field of a missing variable being the
    sentinel; and when the four values read are encodable in UTF-8, the
    route renders the dict without raising and the exchange is answered
    with status 200. *)
Theorem GET_config_cannot_fail_when_encodable (req : request) (p : process) :
  exists d,
    result get_config p = Return d /\
    (forall key, key ∈ config_keys -> environ p !! key = None ->
       result (os.environ_getitem key) p = Raise (KeyError key) /\
       result (os.getenv key NOT_SET) p = Return NOT_SET /\
       dict_get d key = Some NOT_SET) /\
    (encodable_config (environ p) ->
     exists r,
       result (fastapi.request_handler config_route req) p = Return r /\
       result (GET_config req) p = Return r /\
       status_code r = 200).
Proof.
  exists (config_snapshot (environ p)).
  split; [apply result_get_config|]. split.
  - intros key Hkey Hnone. split; [|split].
    + unfold result, os.environ_getitem. now rewrite Hnone.
    + unfold result. rewrite getenv_spec, Hnone. reflexivity.
    + rewrite dict_get_config_snapshot by assumption.
      unfold lookup_or_sentinel. now rewrite Hnone.
  - intros Henc.
    destruct (GET_config_encodable req p Henc) as (r & Hr & Hh & H200 & _).
    exists r. auto.
Qed.

Lemma GET_config_cannot_fail_in_empty_environment :
  encodable_config (environ empty_environment) /\
  exists d,
    result get_config empty_environment = Return d /\
    (result (os.environ_getitem AIDIAGEXPERT_ENDPOINT) empty_environment =
       Raise (KeyError AIDIAGEXPERT_ENDPOINT) /\
     result (os.getenv AIDIAGEXPERT_ENDPOINT NOT_SET) empty_environment =
       Return NOT_SET /\
     dict_get d AIDIAGEXPERT_ENDPOINT = Some NOT_SET) /\
    exists r,
      result (fastapi.request_handler config_route plain_request)
        empty_environment = Return r /\
      result (GET_config plain_request) empty_environment = Return r /\
      status_code r = 200.
Proof.
  assert (Henc : encodable_config (environ empty_environment)).
  { intros key Hkey. each_config_key Hkey; reflexivity. }
  split; [exact Henc|].
  destruct (GET_config_cannot_fail_when_encodable
              plain_request empty_environment)
    as (d & Hd & Hmissing & Hroute).
  exists d. split; [exact Hd|]. split.
  - apply Hmissing; [exact config_key_2 | reflexivity].
  - exact (Hroute Henc).
Defined.

(** C7, as stated, fails: with [COSMOS_DB_ENDPOINT] set to a byte that is
    not UTF-8, the route raises [UnicodeEncodeError] while it renders the
    dict, and the exchange is answered with the 500 error response. *)
Lemma GET_config_raises_for_undecodable_value :
  result (fastapi.request_handler config_route plain_request)
    environment_with_undecodable_byte =
    Raise (UnicodeEncodeError (lit "utf-8") 0xDCFF) /\
  result (GET_config plain_request) environment_with_undecodable_byte =
    Return fastapi.internal_server_error /\
  status_code fastapi.internal_server_error = 500.
Proof.
  split; [|split; [|reflexivity]].
  - unfold result. rewrite request_handler_config. reflexivity.
  - rewrite result_GET_config. reflexivity.
Qed.

(** C9, as amended: when all four variables are set, the keys of the dict
    the handler returns come in the order [COSMOS_DB_ENDPOINT],
    [AIDIAGEXPERT_ENDPOINT], [AIDIAGEXPERT_KEY],
    [AZURE_STORAGE_CONNECTION_STRING_1]; and when their four values are
    encodable in UTF-8, the exchange is answered with status 200 and the
    members of the JSON object of the body come in the same order. *)
Theorem GET_config_keys_in_source_order (p : process) :
  (forall key, key ∈ config_keys -> is_Some (environ p !! key)) ->
  (exists d,
     result get_config p = Return d /\
     dict_keys d =
       [ COSMOS_DB_ENDPOINT; AIDIAGEXPERT_ENDPOINT; AIDIAGEXPERT_KEY;
         AZURE_STORAGE_CONNECTION_STRING_1 ]) /\
  (encodable_config (environ p) ->
   forall req, exists r,
     result (GET_config req) p = Return r /\ status_code r = 200 /\
     exists members,
       body_reads_as r (Object members) /\
       map fst members =
         [ COSMOS_DB_ENDPOINT; AIDIAGEXPERT_ENDPOINT; AIDIAGEXPERT_KEY;
           AZURE_STORAGE_CONNECTION_STRING_1 ]).
Proof.
  intros _. split.
  - exists (config_snapshot (environ p)).
    split; [apply result_get_config | reflexivity].
  - intros Henc req.
    destruct (GET_config_encodable req p Henc) as (r & Hr & _ & H200 & _ & Hj).
    exists r. split; [exact Hr|]. split; [exact H200|].
    eexists. split; [exact Hj|]. reflexivity.
Qed.

Lemma GET_config_keys_in_order_when_fully_set :
  (forall key, key ∈ config_keys ->
     is_Some (environ environment_fully_set !! key)) /\
  encodable_config (environ environment_fully_set) /\
  (exists d,
     result get_config environment_fully_set = Return d /\
     dict_keys d =
       [ COSMOS_DB_ENDPOINT; AIDIAGEXPERT_ENDPOINT; AIDIAGEXPERT_KEY;
         AZURE_STORAGE_CONNECTION_STRING_1 ]) /\
  forall req, exists r,
    result (GET_config req) environment_fully_set = Return r /\
    status_code r = 200 /\
    exists members,
      body_reads_as r (Object members) /\
      map fst members =
        [ COSMOS_DB_ENDPOINT; AIDIAGEXPERT_ENDPOINT; AIDIAGEXPERT_KEY;
          AZURE_STORAGE_CONNECTION_STRING_1 ].
Proof.
  assert (Hset : forall key, key ∈ config_keys ->
            is_Some (environ environment_fully_set !! key)).
  { intros key Hkey. each_config_key Hkey; eexists; reflexivity. }
  assert (Henc : encodable_config (environ environment_fully_set)).
  { intros key Hkey. each_config_key Hkey; reflexivity. }
  split; [exact Hset|]. split; [exact Henc|].
  destruct (GET_config_keys_in_source_order environment_fully_set Hset)
    as [Hdict Hresponse].
  split; [exact Hdict | exact (Hresponse Henc)].
Defined.

(** C9, as stated, fails: all four variables are set, one of them to a
    byte that is not UTF-8; the exchange is answered with the 500
    response, whose body is no JSON object and has no keys in any
    order. *)
Lemma GET_config_no_key_order_for_undecodable_value :
  (forall key, key ∈ config_keys ->
     is_Some (environ environment_fully_set_undecodable !! key)) /\
  ~ (exists r,
       result (GET_config plain_request) environment_fully_set_undecodable =
         Return r /\
       exists j,
         body_reads_as r j /\
         object_keys j =
           [ COSMOS_DB_ENDPOINT; AIDIAGEXPERT_ENDPOINT; AIDIAGEXPERT_KEY;
             AZURE_STORAGE_CONNECTION_STRING_1 ]).
Proof.
  split.
  - intros key Hkey. each_config_key Hkey; eexists; reflexivity.
  - apply no_json_in_internal_server_error.
    rewrite result_GET_config. reflexivity.
Qed.

(** * A change between two calls

    Whatever changes [os.environ] between two calls, the handler's second
    dict differs from the first in the fields of the changed variables
    only. *)


